(** * ws_diag_control.h : compiler diagnostic control macros

    The header is pure preprocessor text: a table of conditional macro
    definitions.  It is embedded as functions from the build environment
    (the predefined macros the [#if]s consult) to the sequence of pragma
    operators a macro invocation expands to. *)

From Stdlib Require Import ZArith Bool List Ascii String Lia.
Import ListNotations.
Open Scope string_scope.
Open Scope Z_scope.

(** ** The build environment *)

(** A predefined object-like macro is either undefined or has an integer
    value.  One field per macro the header tests. *)
Record Env : Type := mkEnv {
  __clang__ : option Z;
  __clang_major__ : option Z;
  __clang_minor__ : option Z;
  __GNUC__ : option Z;
  __GNUC_MINOR__ : option Z;
  _MSC_VER : option Z;
  __APPLE__ : option Z;
  YYBYACC : option Z
}.

(** [defined(m)] and [#ifdef m]. *)
Definition defined (m : option Z) : bool :=
  match m with Some _ => true | None => false end.

(** The value of an identifier inside an [#if] expression: an identifier
    that is not a macro evaluates to 0. *)
Definition pp_value (m : option Z) : Z :=
  match m with Some v => v | None => 0 end.

(** ** Preprocessor operators *)

Module Cpp.

Definition dquote : ascii := "034"%char.
Definition backslash : ascii := "092"%char.

Definition needs_escape (c : ascii) : bool :=
  (Ascii.eqb c dquote || Ascii.eqb c backslash)%bool.

(** Spelling of a token sequence inside a string literal: a backslash is
    put before every double quote and backslash.  This is what [#] does for
    the arguments the header passes: words separated by single spaces, and
    string literals, in which alone quotes and backslashes occur.  The
    operator itself leaves a backslash outside a literal alone and writes
    one space for any run of white space; such arguments are outside this
    model. *)
Fixpoint escape (s : string) : string :=
  match s with
  | EmptyString => EmptyString
  | String c r =>
      if needs_escape c then String backslash (String c (escape r))
      else String c (escape r)
  end.

(** The [#] operator: the argument's spelling as one string literal. *)
Definition stringify (s : string) : string :=
  String dquote (escape s ++ String dquote EmptyString).

(** The [##] operator on spellings, for operands whose pasting is a valid
    token: the header pastes [W] with the first token of a flag name, which
    begins with a letter.  An invalid pasting, which a compiler refuses, is
    outside this model. *)
Definition paste (x y : string) : string := x ++ y.

(** What a compiler does with the operand of [_Pragma]: the delimiting
    quotes are removed, then backslash-quote becomes a quote and
    backslash-backslash a backslash. *)
Fixpoint unescape (s : string) : string :=
  match s with
  | EmptyString => EmptyString
  | String c r =>
      if Ascii.eqb c backslash then
        match r with
        | String d r' =>
            if needs_escape d then String d (unescape r')
            else String c (unescape r)
        | EmptyString => String c EmptyString
        end
      else String c (unescape r)
  end.

Fixpoint drop_closing_quote (s : string) : option string :=
  match s with
  | EmptyString => None
  | String c r =>
      match r with
      | EmptyString => if Ascii.eqb c dquote then Some EmptyString else None
      | String _ _ => option_map (String c) (drop_closing_quote r)
      end
  end.

Definition destringize (lit : string) : option string :=
  match lit with
  | String q body =>
      if Ascii.eqb q dquote
      then option_map unescape (drop_closing_quote body)
      else None
  | EmptyString => None
  end.

(** [strip_prefix p s] is the rest of [s] after the prefix [p]. *)
Fixpoint strip_prefix (p s : string) : option string :=
  match p with
  | EmptyString => Some s
  | String a p' =>
      match s with
      | String b s' => if Ascii.eqb a b then strip_prefix p' s' else None
      | EmptyString => None
      end
  end.

End Cpp.

(** ** What a macro expands to *)

(** The operand of Microsoft's [__pragma(warning(...))]. *)
Inductive ms_warning : Type :=
| warning_push
| warning_disable (code : Z)
| warning_pop.

(** The only tokens the macros of this header leave in the translation
    unit are pragma operators. *)
Inductive directive : Type :=
| _Pragma (lit : string)
| __pragma (w : ms_warning).

Definition expansion : Type := list directive.

(** ** The header *)

Open Scope list_scope.

(** Modelled from the spec: ws_compiler_tests.h, which defines the two
    version tests, is not part of the sources.  The spec describes them as
    compile-time predicates answering whether the active compiler is at
    least version X.Y of family F; [at_least] compares (major, minor)
    pairs in that sense. *)
Definition at_least (have_major have_minor major minor : Z) : bool :=
  ((major <? have_major) ||
   ((have_major =? major) && (minor <=? have_minor)))%bool.

(** Modelled from the spec: [WS_IS_AT_LEAST_CLANG_VERSION(major, minor)] of
    ws_compiler_tests.h, whether the active compiler is Clang of version
    major.minor at least. *)
Definition WS_IS_AT_LEAST_CLANG_VERSION (env : Env) (major minor : Z) : bool :=
  (defined (__clang__ env) &&
   at_least (pp_value (__clang_major__ env)) (pp_value (__clang_minor__ env))
            major minor)%bool.

(** Modelled from the spec: [WS_IS_AT_LEAST_GNUC_VERSION(major, minor)] of
    ws_compiler_tests.h, the same test on [__GNUC__] and [__GNUC_MINOR__]. *)
Definition WS_IS_AT_LEAST_GNUC_VERSION (env : Env) (major minor : Z) : bool :=
  (defined (__GNUC__ env) &&
   at_least (pp_value (__GNUC__ env)) (pp_value (__GNUC_MINOR__ env))
            major minor)%bool.

(** [#define XSTRINGIFY(x) #x] *)
Definition XSTRINGIFY (x : string) : string := Cpp.stringify x.

(** [#define DIAG_JOINSTR(x,y) XSTRINGIFY(x ## y)] *)
Definition DIAG_JOINSTR (x y : string) : string := XSTRINGIFY (Cpp.paste x y).

(** [#define DIAG_DO_PRAGMA(x) _Pragma (#x)] *)
Definition DIAG_DO_PRAGMA (x : string) : expansion := [_Pragma (Cpp.stringify x)].

(** The branch of lines 37-69 that defined [DIAG_PRAGMA], [DIAG_OFF] and
    [DIAG_ON], if one did. *)
Inductive pragma_branch : Type := clang_branch | GCC_branch.

Definition diag_branch (env : Env) : option pragma_branch :=
  if defined (__clang__ env) then
    if WS_IS_AT_LEAST_CLANG_VERSION env 2 8 then Some clang_branch else None
  else if defined (__GNUC__ env) then
    if WS_IS_AT_LEAST_GNUC_VERSION env 4 8 then Some GCC_branch else None
  else None.

(** [#define DIAG_PRAGMA(x) DIAG_DO_PRAGMA(clang diagnostic x)], respectively
    [DIAG_DO_PRAGMA(GCC diagnostic x)]. *)
Definition DIAG_PRAGMA (b : pragma_branch) (x : string) : expansion :=
  match b with
  | clang_branch => DIAG_DO_PRAGMA ("clang diagnostic " ++ x)
  | GCC_branch => DIAG_DO_PRAGMA ("GCC diagnostic " ++ x)
  end.

(** [DIAG_OFF(x)]: the same text in both branches; the empty definition of
    the [#ifndef DIAG_OFF] block when neither branch defined it.  [x] is the
    spelling of the argument as it reaches [DIAG_JOINSTR], that is after the
    preprocessor has expanded any macro named in it. *)
Definition DIAG_OFF (env : Env) (x : string) : expansion :=
  match diag_branch env with
  | Some b =>
      DIAG_PRAGMA b "push" ++ DIAG_PRAGMA b ("ignored " ++ DIAG_JOINSTR "-W" x)
  | None => []
  end.

(** [DIAG_ON(x)]. *)
Definition DIAG_ON (env : Env) (x : string) : expansion :=
  match diag_branch env with
  | Some b => DIAG_PRAGMA b "pop"
  | None => []
  end.

Definition DIAG_OFF_CLANG (env : Env) (x : string) : expansion :=
  if defined (__clang__ env) then DIAG_OFF env x else [].

Definition DIAG_ON_CLANG (env : Env) (x : string) : expansion :=
  if defined (__clang__ env) then DIAG_ON env x else [].

Definition DIAG_OFF_FLEX (env : Env) : expansion :=
  if defined (_MSC_VER env) then
    [ __pragma warning_push;
      __pragma (warning_disable 4018);
      __pragma (warning_disable 4244);
      __pragma (warning_disable 4267);
      __pragma (warning_disable 6011);
      __pragma (warning_disable 6308);
      __pragma (warning_disable 6386);
      __pragma (warning_disable 6387);
      __pragma (warning_disable 28182) ]
  else if (defined (__clang__ env) || defined (__APPLE__ env))%bool then
    DIAG_OFF env "sign-compare" ++
    DIAG_OFF env "shorten-64-to-32" ++
    DIAG_OFF env "unreachable-code"
  else
    DIAG_OFF env "sign-compare".

Definition DIAG_ON_FLEX (env : Env) : expansion :=
  if defined (_MSC_VER env) then
    [ __pragma warning_pop ]
  else if (defined (__clang__ env) || defined (__APPLE__ env))%bool then
    DIAG_OFF env "unreachable-code" ++
    DIAG_ON env "shorten-64-to-32" ++
    DIAG_ON env "sign-compare"
  else
    DIAG_ON env "sign-compare".

Definition DIAG_OFF_BYACC (env : Env) : expansion :=
  if defined (_MSC_VER env) then []
  else if defined (YYBYACC env) then DIAG_OFF env "shadow"
  else [].

Definition DIAG_ON_BYACC (env : Env) : expansion :=
  if defined (_MSC_VER env) then []
  else if defined (YYBYACC env) then DIAG_ON env "SHADOW"
  else [].

Definition USES_APPLE_DEPRECATED_API (env : Env) : expansion :=
  if defined (__APPLE__ env) then DIAG_OFF env "deprecated-declarations" else [].

Definition USES_APPLE_RST (env : Env) : expansion :=
  if defined (__APPLE__ env) then DIAG_ON env "deprecated-declarations" else [].

(** ** Reading the emitted pragmas *)

Module Diag.

Inductive syntax : Type := clang_syntax | GCC_syntax | MS_syntax.

(** A diagnostic is named by a [-W] flag or, for Microsoft, by a number. *)
Inductive diagnostic : Type :=
| flag (w : string)
| code (n : Z).

Inductive action : Type :=
| push
| ignore (d : diagnostic)
| pop.

(** The text after [clang diagnostic ] or [GCC diagnostic ]. *)
Definition diagnostic_text (text : string) : option (syntax * string) :=
  match Cpp.strip_prefix "clang diagnostic " text with
  | Some rest => Some (clang_syntax, rest)
  | None =>
      match Cpp.strip_prefix "GCC diagnostic " text with
      | Some rest => Some (GCC_syntax, rest)
      | None => None
      end
  end.

(** [ignored "-Wflag"]. *)
Definition ignored_flag (rest : string) : option string :=
  match Cpp.strip_prefix "ignored " rest with
  | Some lit =>
      match Cpp.destringize lit with
      | Some opt => Cpp.strip_prefix "-W" opt
      | None => None
      end
  | None => None
  end.

Definition diagnostic_action (rest : string) : option action :=
  if String.eqb rest "push" then Some push
  else if String.eqb rest "pop" then Some pop
  else option_map (fun w => ignore (flag w)) (ignored_flag rest).

(** The pragma a directive stands for; [None] for one that is no
    diagnostic pragma. *)
Definition read (d : directive) : option (syntax * action) :=
  match d with
  | _Pragma lit =>
      match Cpp.destringize lit with
      | Some text =>
          match diagnostic_text text with
          | Some (s, rest) => option_map (pair s) (diagnostic_action rest)
          | None => None
          end
      | None => None
      end
  | __pragma warning_push => Some (MS_syntax, push)
  | __pragma (warning_disable n) => Some (MS_syntax, ignore (code n))
  | __pragma warning_pop => Some (MS_syntax, pop)
  end.

(** The pragma syntax each branch of the header writes. *)
Definition branch_syntax (b : pragma_branch) : syntax :=
  match b with
  | clang_branch => clang_syntax
  | GCC_branch => GCC_syntax
  end.

Definition action_of (d : directive) : option action :=
  option_map snd (read d).

Definition syntax_of (d : directive) : option syntax :=
  option_map fst (read d).

(** The diagnostic actions of an expansion, in order; a directive that is
    no diagnostic pragma has none. *)
Definition actions (e : expansion) : list action :=
  flat_map (fun d => match action_of d with Some a => [a] | None => [] end) e.

Definition is_push (a : action) : bool :=
  match a with push => true | _ => false end.

Definition is_pop (a : action) : bool :=
  match a with pop => true | _ => false end.

Definition pushes (e : expansion) : nat :=
  List.length (filter is_push (actions e)).

Definition pops (e : expansion) : nat :=
  List.length (filter is_pop (actions e)).

Definition diagnostic_eqb (a b : diagnostic) : bool :=
  match a, b with
  | flag v, flag w => String.eqb v w
  | code m, code n => Z.eqb m n
  | _, _ => false
  end.

Definition ignores (d : diagnostic) (a : action) : bool :=
  match a with ignore d' => diagnostic_eqb d d' | _ => false end.

(** [suppresses e d]: some directive of [e] ignores the diagnostic [d]. *)
Definition suppresses (e : expansion) (d : diagnostic) : bool :=
  existsb (ignores d) (actions e).

(** The diagnostic state of a compiler, as the compilers' manuals describe
    push and pop: the diagnostics ignored now, and the saved settings,
    innermost first. *)
Record state : Type := mkState {
  ignored : list diagnostic;
  saved : list (list diagnostic)
}.

(** A pop with nothing saved is taken to leave the settings alone. *)
Definition step (st : state) (a : action) : state :=
  match a with
  | push => mkState (ignored st) (ignored st :: saved st)
  | ignore d => mkState (d :: ignored st) (saved st)
  | pop =>
      match saved st with
      | s :: rest => mkState s rest
      | [] => st
      end
  end.

Definition run (e : expansion) (st : state) : state :=
  fold_left step (actions e) st.

End Diag.

(** ** The compilers the header tells apart *)

(** Line 53: GCC, or a compiler other than Clang that claims to be GCC. *)
Definition GCC_compatible (env : Env) : bool :=
  (negb (defined (__clang__ env)) && defined (__GNUC__ env))%bool.

(** Clang 2.8 or later, or a GCC-compatible compiler 4.8 or later: the
    compilers for which [DIAG_OFF] suppresses anything. *)
Definition supported (env : Env) : bool :=
  (WS_IS_AT_LEAST_CLANG_VERSION env 2 8 ||
   (GCC_compatible env && WS_IS_AT_LEAST_GNUC_VERSION env 4 8))%bool.

(** ** Sample build environments *)

Definition no_macros : Env :=
  mkEnv None None None None None None None None.

Definition clang_env (major minor : Z) : Env :=
  mkEnv (Some 1) (Some major) (Some minor) (Some 4) (Some 2) None None None.

Definition gcc_env (major minor : Z) : Env :=
  mkEnv None None None (Some major) (Some minor) None None None.

Definition msvc_env : Env :=
  mkEnv None None None None None (Some 1900) None None.

Definition with_APPLE (env : Env) : Env :=
  mkEnv (__clang__ env) (__clang_major__ env) (__clang_minor__ env)
        (__GNUC__ env) (__GNUC_MINOR__ env) (_MSC_VER env) (Some 1) (YYBYACC env).

Definition with_YYBYACC (env : Env) : Env :=
  mkEnv (__clang__ env) (__clang_major__ env) (__clang_minor__ env)
        (__GNUC__ env) (__GNUC_MINOR__ env) (_MSC_VER env) (__APPLE__ env) (Some 1).

Definition with_MSC_VER (env : Env) : Env :=
  mkEnv (__clang__ env) (__clang_major__ env) (__clang_minor__ env)
        (__GNUC__ env) (__GNUC_MINOR__ env) (Some 1900) (__APPLE__ env) (YYBYACC env).

(** ** Uses of the macros *)

(** The characters of the names of warning flags, as in [sign-compare],
    [shorten-64-to-32], [format=2] or [c++11-compat]; a name begins with a
    letter or an underscore. *)
Definition flag_start (c : ascii) : bool :=
  let n := nat_of_ascii c in
  ((65 <=? n) && (n <=? 90) || (97 <=? n) && (n <=? 122) || (n =? 95))%nat%bool.

Definition flag_char (c : ascii) : bool :=
  let n := nat_of_ascii c in
  (flag_start c || (48 <=? n) && (n <=? 57) ||
   (n =? 45) || (n =? 43) || (n =? 61))%nat%bool.

Fixpoint flag_chars (s : string) : bool :=
  match s with
  | EmptyString => true
  | String c r => (flag_char c && flag_chars r)%bool
  end.

Definition flag_name (x : string) : bool :=
  match x with
  | EmptyString => false
  | String c r => (flag_start c && flag_chars r)%bool
  end.

(** The string literal a programmer writes for a text without quotes and
    backslashes, and the two characters that stand for a quote inside a
    literal. *)
Definition in_quotes (s : string) : string :=
  String Cpp.dquote (s ++ String Cpp.dquote EmptyString).

Definition escaped_quote : string :=
  String Cpp.backslash (String Cpp.dquote EmptyString).

Definition family_name (b : pragma_branch) : string :=
  match b with
  | clang_branch => "clang"
  | GCC_branch => "GCC"
  end.

(** The text a compiler sees in a [_Pragma] operator. *)
Definition pragma_text (d : directive) : option string :=
  match d with
  | _Pragma lit => Cpp.destringize lit
  | __pragma _ => None
  end.

(** The expansions of the ten macros the header offers to other files, the
    flag [x] going to those that take one. *)
Definition header_macros (env : Env) (x : string) : list expansion :=
  [ DIAG_OFF env x; DIAG_ON env x;
    DIAG_OFF_CLANG env x; DIAG_ON_CLANG env x;
    DIAG_OFF_FLEX env; DIAG_ON_FLEX env;
    DIAG_OFF_BYACC env; DIAG_ON_BYACC env;
    USES_APPLE_DEPRECATED_API env; USES_APPLE_RST env ].

(** Text that uses the flag pairs, the Clang pairs, the Berkeley YACC pair
    and the macOS pair properly nested: a suppress macro is closed by the
    restore macro of its kind, around text that is nested in turn.  The Flex
    pair is left out. *)
Inductive nested (env : Env) : expansion -> Prop :=
| nested_nil : nested env []
| nested_seq (e1 e2 : expansion) :
    nested env e1 -> nested env e2 -> nested env (e1 ++ e2)
| nested_DIAG (x y : string) (e : expansion) :
    nested env e -> nested env (DIAG_OFF env x ++ e ++ DIAG_ON env y)
| nested_CLANG (x y : string) (e : expansion) :
    nested env e -> nested env (DIAG_OFF_CLANG env x ++ e ++ DIAG_ON_CLANG env y)
| nested_BYACC (e : expansion) :
    nested env e -> nested env (DIAG_OFF_BYACC env ++ e ++ DIAG_ON_BYACC env)
| nested_APPLE (e : expansion) :
    nested env e ->
    nested env (USES_APPLE_DEPRECATED_API env ++ e ++ USES_APPLE_RST env).

(** A suppress/restore pair is either one push with one ignore, closed by
    one pop, or nothing on both sides. *)
Definition bracket (off on : expansion) : Prop :=
  (exists d, Diag.actions off = [Diag.push; Diag.ignore d] /\ Diag.actions on = [Diag.pop]) \/
  (Diag.actions off = [] /\ Diag.actions on = []).

(** The environments in which the Flex pair is not the three-flag one of
    lines 157-164, or expands to nothing. *)
Definition FLEX_pair_plain (env : Env) : bool :=
  (defined (_MSC_VER env) ||
   negb (defined (__clang__ env) || defined (__APPLE__ env)) ||
   negb (supported env))%bool.

(** * Properties *)

(** ** Stringifying and reading back *)

Section CppFacts.
Import Cpp.
Local Open Scope string_scope.

Lemma unescape_escape (s : string) : unescape (escape s) = s.
Proof.
  induction s as [|c r IH]; [reflexivity|].
  cbn [escape]. destruct (needs_escape c) eqn:E.
  - cbn [unescape]. rewrite E. change (Ascii.eqb backslash backslash) with true.
    cbn iota. now rewrite IH.
  - cbn [unescape]. unfold needs_escape in E.
    apply orb_false_elim in E as [_ E]. rewrite E. now rewrite IH.
Qed.

Lemma drop_closing_quote_app (t : string) :
  drop_closing_quote (t ++ String dquote EmptyString) = Some t.
Proof.
  induction t as [|c r IH]; [reflexivity|].
  cbn [append drop_closing_quote]. rewrite IH.
  destruct r; reflexivity.
Qed.

Lemma destringize_stringify (s : string) : destringize (stringify s) = Some s.
Proof.
  unfold destringize, stringify.
  change (Ascii.eqb dquote dquote) with true. cbn iota.
  rewrite drop_closing_quote_app. cbn [option_map].
  now rewrite unescape_escape.
Qed.

Lemma strip_prefix_app (p s : string) : strip_prefix p (p ++ s) = Some s.
Proof.
  induction p as [|a p IH]; [reflexivity|].
  cbn [append strip_prefix]. now rewrite Ascii.eqb_refl.
Qed.

End CppFacts.

(** ** How the pragmas of [DIAG_PRAGMA] read *)

Section ReadFacts.
Import Diag.

Lemma diagnostic_text_clang (r : string) :
  diagnostic_text ("clang diagnostic " ++ r) = Some (clang_syntax, r).
Proof. unfold diagnostic_text. now rewrite strip_prefix_app. Qed.

Lemma diagnostic_text_GCC (r : string) :
  diagnostic_text ("GCC diagnostic " ++ r) = Some (GCC_syntax, r).
Proof.
  unfold diagnostic_text.
  replace (Cpp.strip_prefix "clang diagnostic " ("GCC diagnostic " ++ r))
    with (@None string) by reflexivity.
  now rewrite strip_prefix_app.
Qed.

Lemma read_DIAG_PRAGMA (b : pragma_branch) (x : string) :
  map read (DIAG_PRAGMA b x) =
  [option_map (pair (branch_syntax b)) (diagnostic_action x)].
Proof.
  destruct b; unfold DIAG_PRAGMA, DIAG_DO_PRAGMA; cbn [map read];
    rewrite destringize_stringify.
  - now rewrite diagnostic_text_clang.
  - now rewrite diagnostic_text_GCC.
Qed.

Lemma diagnostic_action_ignored (x : string) :
  diagnostic_action ("ignored " ++ DIAG_JOINSTR "-W" x) = Some (ignore (flag x)).
Proof.
  unfold diagnostic_action.
  replace (String.eqb ("ignored " ++ DIAG_JOINSTR "-W" x) "push")
    with false by reflexivity.
  replace (String.eqb ("ignored " ++ DIAG_JOINSTR "-W" x) "pop")
    with false by reflexivity.
  unfold ignored_flag. rewrite strip_prefix_app.
  unfold DIAG_JOINSTR, XSTRINGIFY, Cpp.paste.
  rewrite destringize_stringify, strip_prefix_app. reflexivity.
Qed.

Lemma read_push (b : pragma_branch) :
  map read (DIAG_PRAGMA b "push") = [Some (branch_syntax b, push)].
Proof. now rewrite read_DIAG_PRAGMA. Qed.

Lemma read_pop (b : pragma_branch) :
  map read (DIAG_PRAGMA b "pop") = [Some (branch_syntax b, pop)].
Proof. now rewrite read_DIAG_PRAGMA. Qed.

Lemma read_ignored (b : pragma_branch) (x : string) :
  map read (DIAG_PRAGMA b ("ignored " ++ DIAG_JOINSTR "-W" x)) =
  [Some (branch_syntax b, ignore (flag x))].
Proof. now rewrite read_DIAG_PRAGMA, diagnostic_action_ignored. Qed.

(** The reading of [DIAG_OFF] and [DIAG_ON] in every environment. *)
Lemma read_DIAG_OFF (env : Env) (x : string) :
  map read (DIAG_OFF env x) =
  match diag_branch env with
  | Some b => [Some (branch_syntax b, push);
               Some (branch_syntax b, ignore (flag x))]
  | None => []
  end.
Proof.
  unfold DIAG_OFF. destruct (diag_branch env) as [b|]; [|reflexivity].
  now rewrite map_app, read_push, read_ignored.
Qed.

Lemma read_DIAG_ON (env : Env) (x : string) :
  map read (DIAG_ON env x) =
  match diag_branch env with
  | Some b => [Some (branch_syntax b, pop)]
  | None => []
  end.
Proof.
  unfold DIAG_ON. destruct (diag_branch env) as [b|]; [|reflexivity].
  apply read_pop.
Qed.

End ReadFacts.

(** ** The version tests and the branch taken *)

Lemma at_least_spec (have_major have_minor major minor : Z) :
  at_least have_major have_minor major minor = true <->
  major < have_major \/ (have_major = major /\ minor <= have_minor).
Proof. unfold at_least. lia. Qed.

Lemma diag_branch_clang (env : Env) :
  WS_IS_AT_LEAST_CLANG_VERSION env 2 8 = true ->
  diag_branch env = Some clang_branch.
Proof.
  intros H. unfold diag_branch. rewrite H.
  unfold WS_IS_AT_LEAST_CLANG_VERSION in H.
  apply andb_true_iff in H as [-> _]. reflexivity.
Qed.

Lemma diag_branch_GCC (env : Env) :
  defined (__clang__ env) = false ->
  WS_IS_AT_LEAST_GNUC_VERSION env 4 8 = true ->
  diag_branch env = Some GCC_branch.
Proof.
  intros C H. unfold diag_branch. rewrite C, H.
  unfold WS_IS_AT_LEAST_GNUC_VERSION in H.
  apply andb_true_iff in H as [-> _]. reflexivity.
Qed.

Lemma diag_branch_none (env : Env) :
  supported env = false -> diag_branch env = None.
Proof.
  unfold supported, GCC_compatible, diag_branch. intros H.
  apply orb_false_elim in H as [-> H].
  destruct (defined (__clang__ env)); [reflexivity|].
  destruct (defined (__GNUC__ env)); [|reflexivity].
  cbn in H. now rewrite H.
Qed.

Lemma supported_diag_branch (env : Env) :
  supported env = match diag_branch env with Some _ => true | None => false end.
Proof.
  destruct (supported env) eqn:S.
  - unfold supported, GCC_compatible in S.
    apply orb_true_iff in S as [S|S].
    + now rewrite diag_branch_clang.
    + apply andb_true_iff in S as [G S].
      apply andb_true_iff in G as [C _]. apply negb_true_iff in C.
      now rewrite diag_branch_GCC.
  - now rewrite diag_branch_none.
Qed.

(** ** The actions of each macro *)

Section ActionFacts.
Import Diag.

Lemma actions_app (e1 e2 : expansion) :
  actions (e1 ++ e2) = actions e1 ++ actions e2.
Proof. apply flat_map_app. Qed.

Lemma action_of_read (d : directive) (s : syntax) (a : action) :
  read d = Some (s, a) -> actions [d] = [a].
Proof. intros H. unfold actions, action_of. cbn. now rewrite H. Qed.

Lemma actions_read (e : expansion) (l : list (syntax * action)) :
  map read e = map Some l -> actions e = map snd l.
Proof.
  revert l. induction e as [|d e IH]; intros [|[s a] l] H; try discriminate.
  - reflexivity.
  - cbn [map] in H. injection H as Hd He.
    change (d :: e) with ([d] ++ e).
    rewrite actions_app, (action_of_read _ _ _ Hd), (IH _ He). reflexivity.
Qed.

Lemma actions_DIAG_OFF (env : Env) (x : string) :
  actions (DIAG_OFF env x) =
  if supported env then [push; ignore (flag x)] else [].
Proof.
  rewrite supported_diag_branch.
  pose proof (read_DIAG_OFF env x) as R.
  destruct (diag_branch env) as [b|] eqn:B.
  - apply (actions_read _ [(branch_syntax b, push);
                           (branch_syntax b, ignore (flag x))] R).
  - unfold DIAG_OFF. now rewrite B.
Qed.

Lemma actions_DIAG_ON (env : Env) (x : string) :
  actions (DIAG_ON env x) = if supported env then [pop] else [].
Proof.
  rewrite supported_diag_branch.
  pose proof (read_DIAG_ON env x) as R.
  destruct (diag_branch env) as [b|] eqn:B.
  - apply (actions_read _ [(branch_syntax b, pop)] R).
  - unfold DIAG_ON. now rewrite B.
Qed.

End ActionFacts.

Create Rewrite HintDb diag_actions.
#[export] Hint Rewrite actions_app actions_DIAG_OFF actions_DIAG_ON : diag_actions.

(** ** [DIAG_OFF] and [DIAG_ON] by compiler and version *)

Section Generic.
Import Diag.

(** C3: for every flag [x], on Clang 2.8 or later and on a GCC-compatible
    compiler other than Clang of version 4.8 or later, [DIAG_OFF(x)]
    expands to a push pragma followed by a pragma ignoring [-Wx] and
    [DIAG_ON(x)] to a pop pragma, each in the compiler's own syntax; on
    Clang before 2.8 and on a GCC-compatible compiler before 4.8 both
    expand to nothing. *)
Theorem DIAG_OFF_ON_by_version (env : Env) (x : string) :
  (WS_IS_AT_LEAST_CLANG_VERSION env 2 8 = true ->
     DIAG_OFF env x =
       [_Pragma (Cpp.stringify "clang diagnostic push");
        _Pragma (Cpp.stringify
                   ("clang diagnostic ignored " ++ Cpp.stringify ("-W" ++ x)))] /\
     DIAG_ON env x = [_Pragma (Cpp.stringify "clang diagnostic pop")] /\
     map read (DIAG_OFF env x) =
       [Some (clang_syntax, push); Some (clang_syntax, ignore (flag x))] /\
     map read (DIAG_ON env x) = [Some (clang_syntax, pop)]) /\
  (GCC_compatible env = true ->
   WS_IS_AT_LEAST_GNUC_VERSION env 4 8 = true ->
     DIAG_OFF env x =
       [_Pragma (Cpp.stringify "GCC diagnostic push");
        _Pragma (Cpp.stringify
                   ("GCC diagnostic ignored " ++ Cpp.stringify ("-W" ++ x)))] /\
     DIAG_ON env x = [_Pragma (Cpp.stringify "GCC diagnostic pop")] /\
     map read (DIAG_OFF env x) =
       [Some (GCC_syntax, push); Some (GCC_syntax, ignore (flag x))] /\
     map read (DIAG_ON env x) = [Some (GCC_syntax, pop)]) /\
  (defined (__clang__ env) = true ->
   WS_IS_AT_LEAST_CLANG_VERSION env 2 8 = false ->
     DIAG_OFF env x = [] /\ DIAG_ON env x = []) /\
  (GCC_compatible env = true ->
   WS_IS_AT_LEAST_GNUC_VERSION env 4 8 = false ->
     DIAG_OFF env x = [] /\ DIAG_ON env x = []).
Proof.
  repeat split.
  1-4: rewrite ?read_DIAG_OFF, ?read_DIAG_ON; unfold DIAG_OFF, DIAG_ON;
       rewrite (diag_branch_clang env H); reflexivity.
  1-4: apply andb_true_iff in H as [C _]; apply negb_true_iff in C;
       rewrite ?read_DIAG_OFF, ?read_DIAG_ON; unfold DIAG_OFF, DIAG_ON;
       rewrite (diag_branch_GCC env C H0); reflexivity.
  1-2: unfold DIAG_OFF, DIAG_ON, diag_branch; rewrite H, H0; reflexivity.
  1-2: apply andb_true_iff in H as [C G]; apply negb_true_iff in C;
       unfold DIAG_OFF, DIAG_ON, diag_branch; rewrite C, G, H0; reflexivity.
Qed.

(** C3 on Clang 2.8, GCC 4.8, Clang 2.7 and GCC 4.7. *)
Lemma DIAG_OFF_ON_by_version_witness :
  (map read (DIAG_OFF (clang_env 2 8) "shadow") =
     [Some (clang_syntax, push); Some (clang_syntax, ignore (flag "shadow"))] /\
   map read (DIAG_ON (clang_env 2 8) "shadow") = [Some (clang_syntax, pop)]) /\
  (map read (DIAG_OFF (gcc_env 4 8) "shadow") =
     [Some (GCC_syntax, push); Some (GCC_syntax, ignore (flag "shadow"))] /\
   map read (DIAG_ON (gcc_env 4 8) "shadow") = [Some (GCC_syntax, pop)]) /\
  (DIAG_OFF (clang_env 2 7) "shadow" = [] /\
   DIAG_ON (clang_env 2 7) "shadow" = []) /\
  (DIAG_OFF (gcc_env 4 7) "shadow" = [] /\
   DIAG_ON (gcc_env 4 7) "shadow" = []).
Proof.
  split; [|split; [|split]].
  - apply (proj1 (DIAG_OFF_ON_by_version (clang_env 2 8) "shadow")).
    reflexivity.
  - apply (proj1 (proj2 (DIAG_OFF_ON_by_version (gcc_env 4 8) "shadow")));
      reflexivity.
  - apply (proj1 (proj2 (proj2 (DIAG_OFF_ON_by_version (clang_env 2 7) "shadow"))));
      reflexivity.
  - apply (proj2 (proj2 (proj2 (DIAG_OFF_ON_by_version (gcc_env 4 7) "shadow"))));
      reflexivity.
Defined.

(** C4: for every flag [x], on a compiler that is neither Clang 2.8 or
    later nor a GCC-compatible compiler 4.8 or later, [DIAG_OFF(x)] and
    [DIAG_ON(x)] expand to nothing. *)
Theorem DIAG_OFF_ON_unsupported (env : Env) (x : string) :
  WS_IS_AT_LEAST_CLANG_VERSION env 2 8 = false ->
  (GCC_compatible env && WS_IS_AT_LEAST_GNUC_VERSION env 4 8)%bool = false ->
  DIAG_OFF env x = [] /\ DIAG_ON env x = [].
Proof.
  intros C G. unfold DIAG_OFF, DIAG_ON.
  rewrite diag_branch_none; [split; reflexivity|].
  unfold supported. now rewrite C, G.
Qed.

(** C4 on a Microsoft compiler, on a compiler that defines none of the
    macros, and on GCC 4.7. *)
Lemma DIAG_OFF_ON_unsupported_witness :
  (DIAG_OFF msvc_env "pedantic" = [] /\ DIAG_ON msvc_env "pedantic" = []) /\
  (DIAG_OFF no_macros "pedantic" = [] /\ DIAG_ON no_macros "pedantic" = []) /\
  (DIAG_OFF (gcc_env 4 7) "pedantic" = [] /\
   DIAG_ON (gcc_env 4 7) "pedantic" = []).
Proof.
  split; [|split].
  - apply (DIAG_OFF_ON_unsupported msvc_env "pedantic"); reflexivity.
  - apply (DIAG_OFF_ON_unsupported no_macros "pedantic"); reflexivity.
  - apply (DIAG_OFF_ON_unsupported (gcc_env 4 7) "pedantic"); reflexivity.
Defined.

End Generic.

(** ** Running a suppress/restore pair *)

Section Pairs.
Import Diag.

(** One [DIAG_OFF] closed by one [DIAG_ON], whatever the two arguments. *)
Lemma run_DIAG_OFF_ON (env : Env) (x y : string) (st : state) :
  run (DIAG_OFF env x ++ DIAG_ON env y) st = st.
Proof.
  unfold run. autorewrite with diag_actions.
  destruct (supported env); destruct st; reflexivity.
Qed.

Lemma count_DIAG_OFF_ON (env : Env) (x y : string) :
  pushes (DIAG_OFF env x ++ DIAG_ON env y) = pops (DIAG_OFF env x ++ DIAG_ON env y).
Proof.
  unfold pushes, pops. autorewrite with diag_actions.
  destruct (supported env); reflexivity.
Qed.

(** C5: when both [__clang__] and [__GNUC__] are defined the Clang branch is
    the one taken: every pragma [DIAG_OFF] and [DIAG_ON] expand to is written
    in the [clang diagnostic] syntax, none in the [GCC diagnostic] syntax. *)
Theorem clang_checked_before_GNUC (env : Env) (x : string) :
  defined (__clang__ env) = true ->
  defined (__GNUC__ env) = true ->
  diag_branch env <> Some GCC_branch /\
  forall d, In d (DIAG_OFF env x ++ DIAG_ON env x) ->
            syntax_of d = Some clang_syntax /\ syntax_of d <> Some GCC_syntax.
Proof.
  intros C _.
  assert (B : diag_branch env = Some clang_branch \/ diag_branch env = None).
  { unfold diag_branch. rewrite C.
    destruct (WS_IS_AT_LEAST_CLANG_VERSION env 2 8); auto. }
  split; [destruct B as [B|B]; rewrite B; discriminate|].
  intros d I. apply (in_map read) in I.
  rewrite map_app, read_DIAG_OFF, read_DIAG_ON in I.
  unfold syntax_of.
  destruct B as [B|B]; rewrite B in I; cbn in I.
  - destruct I as [<-|[<-|[<-|[]]]]; cbn; split; (reflexivity || discriminate).
  - destruct I.
Qed.

(** C5 on Clang 3.4, which also defines [__GNUC__] (as 4.2). *)
Lemma clang_checked_before_GNUC_witness :
  DIAG_OFF (clang_env 3 4) "shadow" ++ DIAG_ON (clang_env 3 4) "shadow" <> [] /\
  diag_branch (clang_env 3 4) <> Some GCC_branch /\
  forall d, In d (DIAG_OFF (clang_env 3 4) "shadow" ++ DIAG_ON (clang_env 3 4) "shadow") ->
            syntax_of d = Some clang_syntax /\ syntax_of d <> Some GCC_syntax.
Proof.
  split; [discriminate|].
  apply (clang_checked_before_GNUC (clang_env 3 4) "shadow"); reflexivity.
Defined.

(** C9: [DIAG_ON] does not look at its argument: for any two flags it
    expands to the same text, which is a single pop or nothing.  So
    [DIAG_ON_BYACC], which passes [SHADOW] where [DIAG_OFF_BYACC] passed
    [shadow], expands as [DIAG_ON(shadow)] would and restores the state
    [DIAG_OFF_BYACC] saved. *)
Theorem DIAG_ON_ignores_its_argument (env : Env) (x y : string) :
  DIAG_ON env x = DIAG_ON env y /\
  (actions (DIAG_ON env x) = [pop] \/ DIAG_ON env x = []) /\
  DIAG_ON_BYACC env =
    (if defined (_MSC_VER env) then []
     else if defined (YYBYACC env) then DIAG_ON env "shadow" else []) /\
  pushes (DIAG_OFF_BYACC env ++ DIAG_ON_BYACC env) =
    pops (DIAG_OFF_BYACC env ++ DIAG_ON_BYACC env) /\
  forall st, run (DIAG_OFF_BYACC env ++ DIAG_ON_BYACC env) st = st.
Proof.
  split; [reflexivity|]. split.
  - rewrite actions_DIAG_ON. unfold DIAG_ON. rewrite supported_diag_branch.
    destruct (diag_branch env); auto.
  - split; [reflexivity|].
    unfold DIAG_OFF_BYACC, DIAG_ON_BYACC.
    destruct (defined (_MSC_VER env)); [split; reflexivity|].
    destruct (defined (YYBYACC env)); [|split; reflexivity].
    split; [apply count_DIAG_OFF_ON | intros st; apply run_DIAG_OFF_ON].
Qed.

End Pairs.

(** ** The bundles *)

Section Bundles.
Import Diag.

(** C10: on a Microsoft compiler ([_MSC_VER] defined, neither [__clang__]
    nor [__GNUC__]) [DIAG_OFF(x)] and [DIAG_ON(x)] expand to nothing for
    every flag; the Microsoft pragmas come from [DIAG_OFF_FLEX] and
    [DIAG_ON_FLEX] alone: a push, the eight disabled codes, and a pop.  All
    other macros of the header expand to nothing there. *)
Theorem Microsoft_pragmas_only_in_FLEX (env : Env) (x : string) :
  defined (_MSC_VER env) = true ->
  defined (__clang__ env) = false ->
  defined (__GNUC__ env) = false ->
  DIAG_OFF env x = [] /\ DIAG_ON env x = [] /\
  DIAG_OFF_FLEX env =
    [ __pragma warning_push;
      __pragma (warning_disable 4018); __pragma (warning_disable 4244);
      __pragma (warning_disable 4267); __pragma (warning_disable 6011);
      __pragma (warning_disable 6308); __pragma (warning_disable 6386);
      __pragma (warning_disable 6387); __pragma (warning_disable 28182) ] /\
  DIAG_ON_FLEX env = [ __pragma warning_pop ] /\
  DIAG_OFF_CLANG env x = [] /\ DIAG_ON_CLANG env x = [] /\
  DIAG_OFF_BYACC env = [] /\ DIAG_ON_BYACC env = [] /\
  USES_APPLE_DEPRECATED_API env = [] /\ USES_APPLE_RST env = [].
Proof.
  intros M C G.
  assert (B : diag_branch env = None) by (unfold diag_branch; now rewrite C, G).
  unfold DIAG_OFF_FLEX, DIAG_ON_FLEX, DIAG_OFF_CLANG, DIAG_ON_CLANG,
    DIAG_OFF_BYACC, DIAG_ON_BYACC, USES_APPLE_DEPRECATED_API, USES_APPLE_RST,
    DIAG_OFF, DIAG_ON.
  rewrite M, C, B. destruct (defined (__APPLE__ env)); repeat split.
Qed.

(** C10 on a compiler that defines [_MSC_VER] alone. *)
Lemma Microsoft_pragmas_only_in_FLEX_witness :
  DIAG_OFF msvc_env "sign-compare" = [] /\ DIAG_ON msvc_env "sign-compare" = [] /\
  DIAG_OFF_FLEX msvc_env =
    [ __pragma warning_push;
      __pragma (warning_disable 4018); __pragma (warning_disable 4244);
      __pragma (warning_disable 4267); __pragma (warning_disable 6011);
      __pragma (warning_disable 6308); __pragma (warning_disable 6386);
      __pragma (warning_disable 6387); __pragma (warning_disable 28182) ] /\
  DIAG_ON_FLEX msvc_env = [ __pragma warning_pop ] /\
  DIAG_OFF_CLANG msvc_env "sign-compare" = [] /\
  DIAG_ON_CLANG msvc_env "sign-compare" = [] /\
  DIAG_OFF_BYACC msvc_env = [] /\ DIAG_ON_BYACC msvc_env = [] /\
  USES_APPLE_DEPRECATED_API msvc_env = [] /\ USES_APPLE_RST msvc_env = [].
Proof.
  apply (Microsoft_pragmas_only_in_FLEX msvc_env "sign-compare"); reflexivity.
Defined.

(** C7: [DIAG_OFF_BYACC] suppresses the shadow warning, or expands to
    anything at all, only when [YYBYACC] is defined; without [YYBYACC] both
    [DIAG_OFF_BYACC] and [DIAG_ON_BYACC] expand to nothing. *)
Theorem BYACC_only_with_YYBYACC (env : Env) :
  (suppresses (DIAG_OFF_BYACC env) (flag "shadow") = true ->
   defined (YYBYACC env) = true) /\
  (DIAG_OFF_BYACC env <> [] -> defined (YYBYACC env) = true) /\
  (defined (YYBYACC env) = false ->
   DIAG_OFF_BYACC env = [] /\ DIAG_ON_BYACC env = []).
Proof.
  unfold DIAG_OFF_BYACC, DIAG_ON_BYACC.
  destruct (defined (_MSC_VER env)), (defined (YYBYACC env));
    cbn; repeat split; congruence.
Qed.

(** C7 on GCC 4.8, with and without [YYBYACC]. *)
Lemma BYACC_only_with_YYBYACC_witness :
  (suppresses (DIAG_OFF_BYACC (with_YYBYACC (gcc_env 4 8))) (flag "shadow") = true /\
   defined (YYBYACC (with_YYBYACC (gcc_env 4 8))) = true) /\
  (DIAG_OFF_BYACC (gcc_env 4 8) = [] /\ DIAG_ON_BYACC (gcc_env 4 8) = []).
Proof.
  split.
  - split; [reflexivity|].
    apply (proj1 (BYACC_only_with_YYBYACC (with_YYBYACC (gcc_env 4 8)))).
    reflexivity.
  - apply (proj2 (proj2 (BYACC_only_with_YYBYACC (gcc_env 4 8)))). reflexivity.
Defined.

End Bundles.

(** ** The Flex bundle *)

Section Flex.
Import Diag.

Lemma actions_DIAG_OFF_FLEX (env : Env) :
  actions (DIAG_OFF_FLEX env) =
  if defined (_MSC_VER env) then
    [push; ignore (code 4018); ignore (code 4244); ignore (code 4267);
     ignore (code 6011); ignore (code 6308); ignore (code 6386);
     ignore (code 6387); ignore (code 28182)]
  else if (defined (__clang__ env) || defined (__APPLE__ env))%bool then
    if supported env then
      [push; ignore (flag "sign-compare");
       push; ignore (flag "shorten-64-to-32");
       push; ignore (flag "unreachable-code")]
    else []
  else
    if supported env then [push; ignore (flag "sign-compare")] else [].
Proof.
  unfold DIAG_OFF_FLEX.
  destruct (defined (_MSC_VER env)); [reflexivity|].
  destruct (defined (__clang__ env) || defined (__APPLE__ env))%bool;
    autorewrite with diag_actions; destruct (supported env); reflexivity.
Qed.

Lemma actions_DIAG_ON_FLEX (env : Env) :
  actions (DIAG_ON_FLEX env) =
  if defined (_MSC_VER env) then [pop]
  else if (defined (__clang__ env) || defined (__APPLE__ env))%bool then
    if supported env then
      [push; ignore (flag "unreachable-code"); pop; pop]
    else []
  else
    if supported env then [pop] else [].
Proof.
  unfold DIAG_ON_FLEX.
  destruct (defined (_MSC_VER env)); [reflexivity|].
  destruct (defined (__clang__ env) || defined (__APPLE__ env))%bool;
    autorewrite with diag_actions; destruct (supported env); reflexivity.
Qed.

(** Every pair but the three-flag Flex bundle is balanced, and leaves the
    state it found. *)
Lemma DIAG_CLANG_pair_balanced (env : Env) (x : string) (st : state) :
  pushes (DIAG_OFF_CLANG env x ++ DIAG_ON_CLANG env x) =
    pops (DIAG_OFF_CLANG env x ++ DIAG_ON_CLANG env x) /\
  run (DIAG_OFF_CLANG env x ++ DIAG_ON_CLANG env x) st = st.
Proof.
  unfold DIAG_OFF_CLANG, DIAG_ON_CLANG.
  destruct (defined (__clang__ env)); [|split; reflexivity].
  split; [apply count_DIAG_OFF_ON | apply run_DIAG_OFF_ON].
Qed.

Lemma USES_APPLE_pair_balanced (env : Env) (st : state) :
  pushes (USES_APPLE_DEPRECATED_API env ++ USES_APPLE_RST env) =
    pops (USES_APPLE_DEPRECATED_API env ++ USES_APPLE_RST env) /\
  run (USES_APPLE_DEPRECATED_API env ++ USES_APPLE_RST env) st = st.
Proof.
  unfold USES_APPLE_DEPRECATED_API, USES_APPLE_RST.
  destruct (defined (__APPLE__ env)); [|split; reflexivity].
  split; [apply count_DIAG_OFF_ON | apply run_DIAG_OFF_ON].
Qed.

Lemma DIAG_FLEX_pair_balanced_elsewhere (env : Env) (st : state) :
  (defined (_MSC_VER env) ||
   negb (defined (__clang__ env) || defined (__APPLE__ env)) ||
   negb (supported env))%bool = true ->
  pushes (DIAG_OFF_FLEX env ++ DIAG_ON_FLEX env) =
    pops (DIAG_OFF_FLEX env ++ DIAG_ON_FLEX env) /\
  run (DIAG_OFF_FLEX env ++ DIAG_ON_FLEX env) st = st.
Proof.
  unfold pushes, pops, run.
  rewrite actions_app, actions_DIAG_OFF_FLEX, actions_DIAG_ON_FLEX.
  destruct (defined (_MSC_VER env)),
    (defined (__clang__ env) || defined (__APPLE__ env))%bool,
    (supported env); cbn; intros H; try discriminate H;
    destruct st; split; reflexivity.
Qed.

(** C1, where the code departs from it: in the branch taken when
    [_MSC_VER] is undefined and [__clang__] or [__APPLE__] is defined, on a
    compiler [DIAG_OFF] supports, [DIAG_OFF_FLEX] followed by [DIAG_ON_FLEX]
    pushes four times and pops twice, because [DIAG_ON_FLEX] begins with
    [DIAG_OFF(unreachable-code)].  Two saved settings stay on the stack and
    sign-compare and shorten-64-to-32 stay ignored. *)
Theorem DIAG_FLEX_pair_unbalanced (env : Env) :
  defined (_MSC_VER env) = false ->
  (defined (__clang__ env) || defined (__APPLE__ env))%bool = true ->
  supported env = true ->
  pushes (DIAG_OFF_FLEX env ++ DIAG_ON_FLEX env) = 4%nat /\
  pops (DIAG_OFF_FLEX env ++ DIAG_ON_FLEX env) = 2%nat /\
  forall st,
    run (DIAG_OFF_FLEX env ++ DIAG_ON_FLEX env) st =
      mkState (flag "shorten-64-to-32" :: flag "sign-compare" :: ignored st)
              ((flag "sign-compare" :: ignored st) :: ignored st :: saved st) /\
    run (DIAG_OFF_FLEX env ++ DIAG_ON_FLEX env) st <> st.
Proof.
  intros M C S. unfold pushes, pops, run.
  rewrite actions_app, actions_DIAG_OFF_FLEX, actions_DIAG_ON_FLEX, M, C, S.
  split; [reflexivity|]. split; [reflexivity|].
  intros st. split; [reflexivity|].
  cbn. intros E. apply (f_equal saved) in E. cbn in E.
  apply (f_equal (@List.length _)) in E. cbn in E. lia.
Qed.

(** The unbalanced pair on Clang 2.8. *)
Lemma DIAG_FLEX_pair_unbalanced_witness :
  pushes (DIAG_OFF_FLEX (clang_env 2 8) ++ DIAG_ON_FLEX (clang_env 2 8)) = 4%nat /\
  pops (DIAG_OFF_FLEX (clang_env 2 8) ++ DIAG_ON_FLEX (clang_env 2 8)) = 2%nat /\
  forall st,
    run (DIAG_OFF_FLEX (clang_env 2 8) ++ DIAG_ON_FLEX (clang_env 2 8)) st =
      mkState (flag "shorten-64-to-32" :: flag "sign-compare" :: ignored st)
              ((flag "sign-compare" :: ignored st) :: ignored st :: saved st) /\
    run (DIAG_OFF_FLEX (clang_env 2 8) ++ DIAG_ON_FLEX (clang_env 2 8)) st <> st.
Proof.
  apply (DIAG_FLEX_pair_unbalanced (clang_env 2 8)); reflexivity.
Defined.

End Flex.

(** ** What the bundles suppress *)

Section Suppression.
Import Diag.

(** Against C2 as stated: GCC 4.8 on a system other than macOS passes the
    version test of [DIAG_OFF], and its Flex bundle does not ignore
    shorten-64-to-32; clang-cl passes it too, and its Flex bundle is the
    Microsoft one, which names no flag. *)
Lemma DIAG_OFF_FLEX_GCC_not_three :
  ~ (supported (gcc_env 4 8) = true ->
     suppresses (DIAG_OFF_FLEX (gcc_env 4 8)) (flag "sign-compare") = true /\
     suppresses (DIAG_OFF_FLEX (gcc_env 4 8)) (flag "shorten-64-to-32") = true /\
     suppresses (DIAG_OFF_FLEX (gcc_env 4 8)) (flag "unreachable-code") = true) /\
  ~ (supported (with_MSC_VER (clang_env 9 0)) = true ->
     suppresses (DIAG_OFF_FLEX (with_MSC_VER (clang_env 9 0)))
       (flag "sign-compare") = true /\
     suppresses (DIAG_OFF_FLEX (with_MSC_VER (clang_env 9 0)))
       (flag "shorten-64-to-32") = true /\
     suppresses (DIAG_OFF_FLEX (with_MSC_VER (clang_env 9 0)))
       (flag "unreachable-code") = true).
Proof.
  split; intros H; destruct (H eq_refl) as (_ & N & _);
    vm_compute in N; discriminate N.
Qed.

(** C2, amended: on a compiler [DIAG_OFF] supports, with [_MSC_VER]
    undefined, [DIAG_OFF_FLEX] ignores sign-compare.  With [__clang__] or
    [__APPLE__] defined it is the fixed bundle that pushes and ignores
    sign-compare, shorten-64-to-32 and unreachable-code, in this order; with
    neither defined it does not ignore shorten-64-to-32.  Nothing is said
    here of unreachable-code when neither is defined: the comment of lines
    137-150 lists it as suppressed without condition, and lines 165-167
    leave it out. *)
Theorem DIAG_OFF_FLEX_bundle (env : Env) :
  supported env = true ->
  defined (_MSC_VER env) = false ->
  suppresses (DIAG_OFF_FLEX env) (flag "sign-compare") = true /\
  ((defined (__clang__ env) || defined (__APPLE__ env))%bool = true ->
     actions (DIAG_OFF_FLEX env) =
       [push; ignore (flag "sign-compare");
        push; ignore (flag "shorten-64-to-32");
        push; ignore (flag "unreachable-code")] /\
     suppresses (DIAG_OFF_FLEX env) (flag "shorten-64-to-32") = true /\
     suppresses (DIAG_OFF_FLEX env) (flag "unreachable-code") = true) /\
  ((defined (__clang__ env) || defined (__APPLE__ env))%bool = false ->
     suppresses (DIAG_OFF_FLEX env) (flag "shorten-64-to-32") = false).
Proof.
  intros S M. unfold suppresses. rewrite actions_DIAG_OFF_FLEX, S, M.
  split.
  - destruct (defined (__clang__ env) || defined (__APPLE__ env))%bool;
      reflexivity.
  - split; intros ->; repeat split.
Qed.

(** The amended C2 on Clang 3.4, on GCC 4.8 for macOS and on GCC 4.8
    elsewhere. *)
Lemma DIAG_OFF_FLEX_bundle_witness :
  (suppresses (DIAG_OFF_FLEX (clang_env 3 4)) (flag "sign-compare") = true /\
   suppresses (DIAG_OFF_FLEX (clang_env 3 4)) (flag "shorten-64-to-32") = true /\
   suppresses (DIAG_OFF_FLEX (clang_env 3 4)) (flag "unreachable-code") = true) /\
  (suppresses (DIAG_OFF_FLEX (with_APPLE (gcc_env 4 8))) (flag "sign-compare") = true /\
   suppresses (DIAG_OFF_FLEX (with_APPLE (gcc_env 4 8))) (flag "shorten-64-to-32") = true /\
   suppresses (DIAG_OFF_FLEX (with_APPLE (gcc_env 4 8))) (flag "unreachable-code") = true) /\
  (suppresses (DIAG_OFF_FLEX (gcc_env 4 8)) (flag "sign-compare") = true /\
   suppresses (DIAG_OFF_FLEX (gcc_env 4 8)) (flag "shorten-64-to-32") = false).
Proof.
  pose proof (DIAG_OFF_FLEX_bundle (clang_env 3 4) eq_refl eq_refl)
    as (C1 & C3 & _).
  pose proof (DIAG_OFF_FLEX_bundle (with_APPLE (gcc_env 4 8)) eq_refl eq_refl)
    as (A1 & A3 & _).
  pose proof (DIAG_OFF_FLEX_bundle (gcc_env 4 8) eq_refl eq_refl)
    as (G1 & _ & G2).
  split; [|split].
  - split; [exact C1 | exact (proj2 (C3 eq_refl))].
  - split; [exact A1 | exact (proj2 (A3 eq_refl))].
  - split; [exact G1 | exact (G2 eq_refl)].
Defined.

(** Against C6 as stated: Apple's GCC 4.2 defines [__APPLE__] and fails the
    version test, and clang-cl defines [__clang__] together with
    [_MSC_VER]; in neither does [DIAG_OFF_FLEX] ignore shorten-64-to-32. *)
Lemma DIAG_OFF_FLEX_shorten_not_iff :
  ~ (suppresses (DIAG_OFF_FLEX (with_APPLE (gcc_env 4 2)))
       (flag "shorten-64-to-32") = true <->
     (defined (__clang__ (with_APPLE (gcc_env 4 2))) ||
      defined (__APPLE__ (with_APPLE (gcc_env 4 2))))%bool = true) /\
  ~ (suppresses (DIAG_OFF_FLEX (with_MSC_VER (clang_env 9 0)))
       (flag "shorten-64-to-32") = true <->
     (defined (__clang__ (with_MSC_VER (clang_env 9 0))) ||
      defined (__APPLE__ (with_MSC_VER (clang_env 9 0))))%bool = true).
Proof.
  split; intros [_ H]; specialize (H eq_refl); vm_compute in H; discriminate H.
Qed.

(** C6, amended: [DIAG_OFF_FLEX] ignores shorten-64-to-32 if and only if
    [_MSC_VER] is undefined, [__clang__] or [__APPLE__] is defined, and the
    compiler is one [DIAG_OFF] supports; in every other environment the
    bundle does not ignore it. *)
Theorem DIAG_OFF_FLEX_shorten_iff (env : Env) :
  suppresses (DIAG_OFF_FLEX env) (flag "shorten-64-to-32") = true <->
  defined (_MSC_VER env) = false /\
  (defined (__clang__ env) || defined (__APPLE__ env))%bool = true /\
  supported env = true.
Proof.
  unfold suppresses. rewrite actions_DIAG_OFF_FLEX.
  destruct (defined (_MSC_VER env)),
    (defined (__clang__ env) || defined (__APPLE__ env))%bool,
    (supported env); cbn; intuition congruence.
Qed.

(** The amended C6 on GCC 4.8, for macOS and elsewhere. *)
Lemma DIAG_OFF_FLEX_shorten_iff_witness :
  suppresses (DIAG_OFF_FLEX (with_APPLE (gcc_env 4 8))) (flag "shorten-64-to-32") = true /\
  suppresses (DIAG_OFF_FLEX (gcc_env 4 8)) (flag "shorten-64-to-32") <> true.
Proof.
  split.
  - apply (proj2 (DIAG_OFF_FLEX_shorten_iff (with_APPLE (gcc_env 4 8)))).
    repeat split.
  - intros H. apply (proj1 (DIAG_OFF_FLEX_shorten_iff (gcc_env 4 8))) in H.
    destruct H as (_ & H & _). discriminate H.
Defined.

(** Against C8 as stated: on Apple's GCC 4.2 [__APPLE__] is defined and
    both macros expand to nothing. *)
Lemma USES_APPLE_not_iff :
  ~ (suppresses (USES_APPLE_DEPRECATED_API (with_APPLE (gcc_env 4 2)))
       (flag "deprecated-declarations") = true <->
     defined (__APPLE__ (with_APPLE (gcc_env 4 2))) = true) /\
  USES_APPLE_DEPRECATED_API (with_APPLE (gcc_env 4 2)) = [] /\
  USES_APPLE_RST (with_APPLE (gcc_env 4 2)) = [].
Proof.
  split; [|split; reflexivity].
  intros [_ H]. specialize (H eq_refl). vm_compute in H. discriminate H.
Qed.

(** C8, amended: with [__APPLE__] defined [USES_APPLE_DEPRECATED_API] is
    [DIAG_OFF(deprecated-declarations)] and [USES_APPLE_RST] is
    [DIAG_ON(deprecated-declarations)].  They suppress the
    deprecated-declarations warning, and restore, if and only if
    [__APPLE__] is defined and the compiler is one [DIAG_OFF] supports; in
    every other environment both expand to nothing. *)
Theorem USES_APPLE_iff (env : Env) :
  (defined (__APPLE__ env) = true ->
     USES_APPLE_DEPRECATED_API env = DIAG_OFF env "deprecated-declarations" /\
     USES_APPLE_RST env = DIAG_ON env "deprecated-declarations") /\
  (suppresses (USES_APPLE_DEPRECATED_API env) (flag "deprecated-declarations") = true
   <-> defined (__APPLE__ env) = true /\ supported env = true) /\
  (actions (USES_APPLE_RST env) = [pop]
   <-> defined (__APPLE__ env) = true /\ supported env = true) /\
  (defined (__APPLE__ env) = true -> supported env = true ->
     actions (USES_APPLE_DEPRECATED_API env) =
       [push; ignore (flag "deprecated-declarations")]) /\
  ((defined (__APPLE__ env) && supported env)%bool = false ->
     USES_APPLE_DEPRECATED_API env = [] /\ USES_APPLE_RST env = []).
Proof.
  unfold suppresses, USES_APPLE_DEPRECATED_API, USES_APPLE_RST.
  destruct (defined (__APPLE__ env)).
  - rewrite actions_DIAG_OFF, actions_DIAG_ON.
    unfold DIAG_OFF, DIAG_ON. rewrite supported_diag_branch.
    destruct (diag_branch env); cbn; intuition congruence.
  - cbn. intuition congruence.
Qed.

(** The amended C8 on Clang 9.0, for macOS and elsewhere. *)
Lemma USES_APPLE_iff_witness :
  (suppresses (USES_APPLE_DEPRECATED_API (with_APPLE (clang_env 9 0)))
     (flag "deprecated-declarations") = true /\
   actions (USES_APPLE_RST (with_APPLE (clang_env 9 0))) = [pop]) /\
  (USES_APPLE_DEPRECATED_API (clang_env 9 0) = [] /\
   USES_APPLE_RST (clang_env 9 0) = []).
Proof.
  pose proof (USES_APPLE_iff (with_APPLE (clang_env 9 0))) as (_ & S & P & _).
  pose proof (USES_APPLE_iff (clang_env 9 0)) as (_ & _ & _ & _ & N).
  split.
  - split; [apply (proj2 S) | apply (proj2 P)]; split; reflexivity.
  - apply N. reflexivity.
Defined.

End Suppression.

(** * Further properties of the header *)

(** ** The text handed to [_Pragma] *)

Section PragmaText.
Import Diag.

Lemma escape_app (s t : string) :
  Cpp.escape (s ++ t) = (Cpp.escape s ++ Cpp.escape t)%string.
Proof.
  induction s as [|c s IH]; [reflexivity|].
  cbn [append Cpp.escape]. rewrite IH.
  destruct (Cpp.needs_escape c); reflexivity.
Qed.

Lemma flag_char_plain (c : ascii) :
  flag_char c = true -> Cpp.needs_escape c = false.
Proof.
  intros F. destruct (Cpp.needs_escape c) eqn:E; [|reflexivity].
  unfold Cpp.needs_escape in E.
  apply orb_true_iff in E as [E|E]; apply Ascii.eqb_eq in E; subst c;
    discriminate F.
Qed.

Lemma escape_flag_chars (s : string) :
  flag_chars s = true -> Cpp.escape s = s.
Proof.
  induction s as [|c s IH]; [reflexivity|].
  cbn [flag_chars Cpp.escape]. intros F.
  apply andb_true_iff in F as [F G].
  now rewrite (flag_char_plain c F), (IH G).
Qed.

Lemma flag_name_chars (x : string) : flag_name x = true -> flag_chars x = true.
Proof.
  destruct x as [|c r]; [discriminate|]. cbn [flag_name flag_chars].
  intros F. apply andb_true_iff in F as [F G].
  unfold flag_char. now rewrite F, G.
Qed.

(** The flags the header itself passes are flag names. *)
Lemma header_flags_are_flag_names :
  forallb flag_name
    ["sign-compare"; "shorten-64-to-32"; "unreachable-code"; "shadow";
     "SHADOW"; "deprecated-declarations"]%string = true.
Proof. reflexivity. Qed.

(** X1: for a flag name [x], on a compiler [DIAG_OFF] supports, the
    operands of the two [_Pragma]s of [DIAG_OFF(x)] and of the one of
    [DIAG_ON(x)] are the string literals a programmer would write by hand:
    the family, [diagnostic push], [diagnostic ignored] with [-Wx] between
    escaped quotes, and [diagnostic pop].  The name goes into the literal
    letter for letter, and the compiler reads [-Wx] between plain quotes. *)
Theorem DIAG_OFF_operand_text (env : Env) (b : pragma_branch) (x : string) :
  diag_branch env = Some b ->
  flag_name x = true ->
  DIAG_OFF env x =
    [_Pragma (in_quotes (family_name b ++ " diagnostic push"));
     _Pragma (in_quotes (family_name b ++ " diagnostic ignored " ++
                         escaped_quote ++ "-W" ++ x ++ escaped_quote))] /\
  DIAG_ON env x = [_Pragma (in_quotes (family_name b ++ " diagnostic pop"))] /\
  map pragma_text (DIAG_OFF env x) =
    [Some (family_name b ++ " diagnostic push")%string;
     Some (family_name b ++ " diagnostic ignored " ++ in_quotes ("-W" ++ x))%string].
Proof.
  intros B F. apply flag_name_chars, escape_flag_chars in F.
  assert (I : Cpp.escape ("-W" ++ x) = ("-W" ++ x)%string)
    by (rewrite escape_app, F; reflexivity).
  assert (E : forall p : string,
             Cpp.escape (p ++ DIAG_JOINSTR "-W" x) =
             (Cpp.escape p ++ escaped_quote ++ "-W" ++ x ++ escaped_quote)%string).
  { intros p. unfold DIAG_JOINSTR, XSTRINGIFY, Cpp.paste, Cpp.stringify.
    change (String Cpp.dquote
              (Cpp.escape ("-W" ++ x) ++ String Cpp.dquote EmptyString))
      with (String Cpp.dquote EmptyString ++
            (Cpp.escape ("-W" ++ x) ++ String Cpp.dquote EmptyString))%string.
    rewrite I, (escape_app p), (escape_app (String Cpp.dquote EmptyString)),
      (escape_app ("-W" ++ x)), I.
    reflexivity. }
  unfold DIAG_OFF, DIAG_ON. rewrite B. split; [|split].
  - destruct b; unfold DIAG_PRAGMA, DIAG_DO_PRAGMA, Cpp.stringify, in_quotes;
      cbn [app]; rewrite (escape_app _ ("ignored " ++ _)), E; reflexivity.
  - destruct b; reflexivity.
  - destruct b; unfold DIAG_PRAGMA, DIAG_DO_PRAGMA; cbn [app map pragma_text];
      rewrite !destringize_stringify;
      unfold DIAG_JOINSTR, XSTRINGIFY, Cpp.paste, Cpp.stringify;
      rewrite I; reflexivity.
Qed.

(** X1 on GCC 4.8 and the flag sign-compare. *)
Lemma DIAG_OFF_operand_text_witness :
  DIAG_OFF (gcc_env 4 8) "sign-compare" =
    [_Pragma (in_quotes "GCC diagnostic push");
     _Pragma (in_quotes ("GCC diagnostic ignored " ++ escaped_quote ++
                         "-Wsign-compare" ++ escaped_quote))] /\
  DIAG_ON (gcc_env 4 8) "sign-compare" = [_Pragma (in_quotes "GCC diagnostic pop")] /\
  map pragma_text (DIAG_OFF (gcc_env 4 8) "sign-compare") =
    [Some "GCC diagnostic push";
     Some ("GCC diagnostic ignored " ++ in_quotes "-Wsign-compare")%string].
Proof.
  exact (DIAG_OFF_operand_text (gcc_env 4 8) GCC_branch "sign-compare"
           eq_refl eq_refl).
Defined.

(** X2: on a compiler [DIAG_OFF] supports, two different flag names give
    different expansions of [DIAG_OFF]: unlike [DIAG_ON], it depends on its
    argument, letter case included. *)
Theorem DIAG_OFF_depends_on_flag (env : Env) (x y : string) :
  supported env = true ->
  flag_name x = true ->
  flag_name y = true ->
  String.eqb x y = false ->
  DIAG_OFF env x <> DIAG_OFF env y.
Proof.
  intros S _ _ N E. apply (f_equal actions) in E.
  rewrite !actions_DIAG_OFF, S in E. injection E as E.
  rewrite E, String.eqb_refl in N. discriminate N.
Qed.

Lemma DIAG_OFF_depends_on_flag_witness :
  DIAG_OFF (gcc_env 4 8) "shadow" <> DIAG_OFF (gcc_env 4 8) "SHADOW".
Proof.
  apply (DIAG_OFF_depends_on_flag (gcc_env 4 8) "shadow" "SHADOW"); reflexivity.
Defined.

End PragmaText.

(** ** The Clang-only pair *)

Section ClangOnly.
Import Diag.

Lemma in_DIAG_OFF_syntax (env : Env) (x : string) (d : directive) :
  In d (DIAG_OFF env x) ->
  exists b, diag_branch env = Some b /\ syntax_of d = Some (branch_syntax b).
Proof.
  intros I. apply (in_map read) in I. rewrite read_DIAG_OFF in I.
  unfold syntax_of. destruct (diag_branch env) as [b|]; [|destruct I].
  exists b. split; [reflexivity|].
  destruct I as [<-|[<-|[]]]; reflexivity.
Qed.

Lemma in_DIAG_ON_syntax (env : Env) (x : string) (d : directive) :
  In d (DIAG_ON env x) ->
  exists b, diag_branch env = Some b /\ syntax_of d = Some (branch_syntax b).
Proof.
  intros I. apply (in_map read) in I. rewrite read_DIAG_ON in I.
  unfold syntax_of. destruct (diag_branch env) as [b|]; [|destruct I].
  exists b. split; [reflexivity|].
  destruct I as [<-|[]]; reflexivity.
Qed.

Lemma diag_branch_with_clang (env : Env) :
  defined (__clang__ env) = true ->
  diag_branch env =
  if WS_IS_AT_LEAST_CLANG_VERSION env 2 8 then Some clang_branch else None.
Proof. intros C. unfold diag_branch. now rewrite C. Qed.

Lemma WS_CLANG_without_clang (env : Env) (major minor : Z) :
  defined (__clang__ env) = false ->
  WS_IS_AT_LEAST_CLANG_VERSION env major minor = false.
Proof. intros C. unfold WS_IS_AT_LEAST_CLANG_VERSION. now rewrite C. Qed.

(** X3: [DIAG_OFF_CLANG(x)] and [DIAG_ON_CLANG(x)] expand to something
    exactly on Clang 2.8 or later, and then to what [DIAG_OFF(x)] and
    [DIAG_ON(x)] expand to; whatever they expand to is written in the
    [clang diagnostic] syntax.  On GCC, where [DIAG_OFF] works, they are
    empty. *)
Theorem DIAG_CLANG_only_on_Clang (env : Env) (x : string) :
  (DIAG_OFF_CLANG env x <> [] <-> WS_IS_AT_LEAST_CLANG_VERSION env 2 8 = true) /\
  (DIAG_ON_CLANG env x <> [] <-> WS_IS_AT_LEAST_CLANG_VERSION env 2 8 = true) /\
  (WS_IS_AT_LEAST_CLANG_VERSION env 2 8 = true ->
     DIAG_OFF_CLANG env x = DIAG_OFF env x /\
     DIAG_ON_CLANG env x = DIAG_ON env x) /\
  (forall d, In d (DIAG_OFF_CLANG env x ++ DIAG_ON_CLANG env x) ->
             syntax_of d = Some clang_syntax).
Proof.
  unfold DIAG_OFF_CLANG, DIAG_ON_CLANG.
  destruct (defined (__clang__ env)) eqn:C.
  - unfold DIAG_OFF, DIAG_ON. rewrite (diag_branch_with_clang env C).
    destruct (WS_IS_AT_LEAST_CLANG_VERSION env 2 8) eqn:V.
    + repeat split; try discriminate.
      intros d I. pose proof (diag_branch_clang env V) as B.
      apply in_app_or in I as [I|I];
        [ change (In d (DIAG_PRAGMA clang_branch "push" ++
                        DIAG_PRAGMA clang_branch
                          ("ignored " ++ DIAG_JOINSTR "-W" x))) in I
        | change (In d (DIAG_PRAGMA clang_branch "pop")) in I ];
        apply (in_map read) in I;
        rewrite ?map_app, ?read_push, ?read_ignored, ?read_pop in I;
        unfold syntax_of; cbn in I;
        repeat (destruct I as [<-|I]; [reflexivity|]); destruct I.
    + repeat split; try congruence; intros d [].
  - rewrite (WS_CLANG_without_clang env 2 8 C).
    repeat split; try congruence; intros d [].
Qed.

(** X3 on Clang 3.4 and on GCC 4.8. *)
Lemma DIAG_CLANG_only_on_Clang_witness :
  (DIAG_OFF_CLANG (clang_env 3 4) "unknown-pragmas" =
     DIAG_OFF (clang_env 3 4) "unknown-pragmas" /\
   DIAG_ON_CLANG (clang_env 3 4) "unknown-pragmas" =
     DIAG_ON (clang_env 3 4) "unknown-pragmas") /\
  DIAG_OFF_CLANG (clang_env 3 4) "unknown-pragmas" <> [] /\
  ~ DIAG_OFF_CLANG (gcc_env 4 8) "unknown-pragmas" <> [].
Proof.
  pose proof (DIAG_CLANG_only_on_Clang (clang_env 3 4) "unknown-pragmas")
    as (N & _ & E & _).
  pose proof (DIAG_CLANG_only_on_Clang (gcc_env 4 8) "unknown-pragmas")
    as (G & _).
  split; [apply E; reflexivity|].
  split; [apply (proj2 N); reflexivity|].
  intros H. apply (proj1 G) in H. discriminate H.
Defined.

End ClangOnly.

(** ** Nested and repeated pairs *)

Section Nesting.
Import Diag.

Lemma run_app (e1 e2 : expansion) (st : state) :
  run (e1 ++ e2) st = run e2 (run e1 st).
Proof. unfold run. now rewrite actions_app, fold_left_app. Qed.

Lemma pushes_app (e1 e2 : expansion) :
  pushes (e1 ++ e2) = (pushes e1 + pushes e2)%nat.
Proof. unfold pushes. now rewrite actions_app, filter_app, length_app. Qed.

Lemma pops_app (e1 e2 : expansion) :
  pops (e1 ++ e2) = (pops e1 + pops e2)%nat.
Proof. unfold pops. now rewrite actions_app, filter_app, length_app. Qed.

Lemma bracket_DIAG (env : Env) (x y : string) :
  bracket (DIAG_OFF env x) (DIAG_ON env y).
Proof.
  unfold bracket. rewrite actions_DIAG_OFF, actions_DIAG_ON.
  destruct (supported env); [left; eauto | right; auto].
Qed.

Lemma bracket_nil : bracket [] [].
Proof. right. split; reflexivity. Qed.

Lemma bracket_restores (off on e : expansion) :
  bracket off on ->
  (pushes e = pops e /\ forall st, run e st = st) ->
  pushes (off ++ e ++ on) = pops (off ++ e ++ on) /\
  forall st, run (off ++ e ++ on) st = st.
Proof.
  intros B [C R]. split.
  - rewrite !pushes_app, !pops_app, C. unfold pushes, pops.
    destruct B as [(d & -> & ->)|[-> ->]]; cbn; lia.
  - intros st. rewrite !run_app, R. unfold run.
    destruct B as [(d & -> & ->)|[-> ->]]; destruct st; reflexivity.
Qed.

Lemma nested_balanced (env : Env) (e : expansion) :
  nested env e ->
  pushes e = pops e /\ forall st, run e st = st.
Proof.
  induction 1 as [|e1 e2 _ [C1 R1] _ [C2 R2]|x y e _ IH|x y e _ IH|e _ IH|e _ IH].
  - split; reflexivity.
  - split.
    + now rewrite pushes_app, pops_app, C1, C2.
    + intros st. now rewrite run_app, R1, R2.
  - apply bracket_restores; [apply bracket_DIAG | exact IH].
  - apply bracket_restores; [|exact IH].
    unfold DIAG_OFF_CLANG, DIAG_ON_CLANG.
    destruct (defined (__clang__ env)); [apply bracket_DIAG | apply bracket_nil].
  - apply bracket_restores; [|exact IH].
    unfold DIAG_OFF_BYACC, DIAG_ON_BYACC.
    destruct (defined (_MSC_VER env)); [apply bracket_nil|].
    destruct (defined (YYBYACC env)); [apply bracket_DIAG | apply bracket_nil].
  - apply bracket_restores; [|exact IH].
    unfold USES_APPLE_DEPRECATED_API, USES_APPLE_RST.
    destruct (defined (__APPLE__ env)); [apply bracket_DIAG | apply bracket_nil].
Qed.

(** X4: text in which the flag pairs, the Clang pairs, the Berkeley YACC
    pair and the macOS pair are properly nested, to any depth and any
    number of times in a row, has as many pushes as pops and leaves the
    compiler's diagnostic state as it found it, in every environment.  So
    on a supported compiler a flag turned off by [DIAG_OFF] is still
    ignored, and the state it saved still on top, after any such text. *)
Theorem nested_restores (env : Env) (e : expansion) :
  nested env e ->
  pushes e = pops e /\
  (forall st, run e st = st) /\
  (forall x st, supported env = true ->
     run (DIAG_OFF env x ++ e) st =
       mkState (flag x :: ignored st) (ignored st :: saved st)).
Proof.
  intros N. destruct (nested_balanced env e N) as [C R].
  split; [exact C|]. split; [exact R|].
  intros x st S. rewrite run_app, R. unfold run.
  now rewrite actions_DIAG_OFF, S.
Qed.

(** X4 on macOS Clang: a macOS pair around two flag pairs in a row, the
    second around a Clang pair. *)
Lemma nested_restores_witness :
  pushes
    (USES_APPLE_DEPRECATED_API (with_APPLE (clang_env 9 0)) ++
     ((DIAG_OFF (with_APPLE (clang_env 9 0)) "pedantic" ++ [] ++
       DIAG_ON (with_APPLE (clang_env 9 0)) "pedantic") ++
      (DIAG_OFF (with_APPLE (clang_env 9 0)) "shadow" ++
       (DIAG_OFF_CLANG (with_APPLE (clang_env 9 0)) "unknown-pragmas" ++ [] ++
        DIAG_ON_CLANG (with_APPLE (clang_env 9 0)) "unknown-pragmas") ++
       DIAG_ON (with_APPLE (clang_env 9 0)) "shadow")) ++
     USES_APPLE_RST (with_APPLE (clang_env 9 0))) = 4%nat /\
  forall st,
    run
      (USES_APPLE_DEPRECATED_API (with_APPLE (clang_env 9 0)) ++
       ((DIAG_OFF (with_APPLE (clang_env 9 0)) "pedantic" ++ [] ++
         DIAG_ON (with_APPLE (clang_env 9 0)) "pedantic") ++
        (DIAG_OFF (with_APPLE (clang_env 9 0)) "shadow" ++
         (DIAG_OFF_CLANG (with_APPLE (clang_env 9 0)) "unknown-pragmas" ++ [] ++
          DIAG_ON_CLANG (with_APPLE (clang_env 9 0)) "unknown-pragmas") ++
         DIAG_ON (with_APPLE (clang_env 9 0)) "shadow")) ++
       USES_APPLE_RST (with_APPLE (clang_env 9 0))) st = st.
Proof.
  split; [reflexivity|].
  refine (proj1 (proj2 (nested_restores (with_APPLE (clang_env 9 0)) _ _))).
  apply nested_APPLE. apply nested_seq.
  - apply nested_DIAG, nested_nil.
  - apply nested_DIAG, nested_CLANG, nested_nil.
Defined.

End Nesting.

(** ** The Flex pair, branch by branch *)

Section FlexPair.
Import Diag.

(** X5: [DIAG_OFF_FLEX] followed by [DIAG_ON_FLEX] has as many pushes as
    pops, and leaves the diagnostic state as it found it, exactly in the
    environments outside the three-flag branch on a supported compiler:
    with [_MSC_VER] defined, with neither [__clang__] nor [__APPLE__], or on
    a compiler [DIAG_OFF] does not support. *)
Theorem DIAG_FLEX_pair_balanced_iff (env : Env) :
  (pushes (DIAG_OFF_FLEX env ++ DIAG_ON_FLEX env) =
     pops (DIAG_OFF_FLEX env ++ DIAG_ON_FLEX env)
   <-> FLEX_pair_plain env = true) /\
  ((forall st, run (DIAG_OFF_FLEX env ++ DIAG_ON_FLEX env) st = st)
   <-> FLEX_pair_plain env = true).
Proof.
  unfold FLEX_pair_plain, pushes, pops, run.
  rewrite actions_app, actions_DIAG_OFF_FLEX, actions_DIAG_ON_FLEX.
  destruct (defined (_MSC_VER env)),
    (defined (__clang__ env) || defined (__APPLE__ env))%bool,
    (supported env); cbn; split; split;
    try reflexivity; try discriminate;
    try (intros _ [i s]; reflexivity).
  intros H. specialize (H (mkState [] [])). discriminate H.
Qed.

(** X5 on clang-cl, GCC 4.8, Clang 2.7 and Clang 9.0. *)
Lemma DIAG_FLEX_pair_balanced_iff_witness :
  (forall st, run (DIAG_OFF_FLEX (with_MSC_VER (clang_env 9 0)) ++
                   DIAG_ON_FLEX (with_MSC_VER (clang_env 9 0))) st = st) /\
  (forall st, run (DIAG_OFF_FLEX (gcc_env 4 8) ++
                   DIAG_ON_FLEX (gcc_env 4 8)) st = st) /\
  (forall st, run (DIAG_OFF_FLEX (clang_env 2 7) ++
                   DIAG_ON_FLEX (clang_env 2 7)) st = st) /\
  pushes (DIAG_OFF_FLEX (clang_env 9 0) ++ DIAG_ON_FLEX (clang_env 9 0)) <>
    pops (DIAG_OFF_FLEX (clang_env 9 0) ++ DIAG_ON_FLEX (clang_env 9 0)).
Proof.
  split; [|split; [|split]].
  - apply (proj2 (proj2 (DIAG_FLEX_pair_balanced_iff (with_MSC_VER (clang_env 9 0))))).
    reflexivity.
  - apply (proj2 (proj2 (DIAG_FLEX_pair_balanced_iff (gcc_env 4 8)))).
    reflexivity.
  - apply (proj2 (proj2 (DIAG_FLEX_pair_balanced_iff (clang_env 2 7)))).
    reflexivity.
  - intros E.
    apply (proj1 (proj1 (DIAG_FLEX_pair_balanced_iff (clang_env 9 0)))) in E.
    discriminate E.
Defined.

End FlexPair.

(** ** The whole header *)

Section WholeHeader.
Import Diag.

Lemma in_MS_syntax (d : directive) (ws : list ms_warning) :
  In d (map __pragma ws) -> syntax_of d = Some MS_syntax.
Proof.
  intros I. apply in_map_iff in I as (w & <- & _). destruct w; reflexivity.
Qed.

(** X6: in every environment and for every flag, each pragma of each of the
    ten macros is in a syntax the tests of the header selected: Microsoft's
    only with [_MSC_VER] defined, and otherwise the [clang diagnostic] or
    [GCC diagnostic] syntax of the branch that defined [DIAG_OFF].  In
    particular each is a well-formed diagnostic pragma. *)
Theorem pragmas_in_selected_syntax (env : Env) (x : string)
    (e : expansion) (d : directive) :
  In e (header_macros env x) ->
  In d e ->
  (defined (_MSC_VER env) = true /\ syntax_of d = Some MS_syntax) \/
  (exists b, diag_branch env = Some b /\ syntax_of d = Some (branch_syntax b)).
Proof.
  intros E I. unfold header_macros in E. cbn [In] in E.
  assert (OFF := in_DIAG_OFF_syntax env). assert (ON := in_DIAG_ON_syntax env).
  destruct E as [<-|[<-|[<-|[<-|[<-|[<-|[<-|[<-|[<-|[<-|[]]]]]]]]]]].
  - right; eauto.
  - right; eauto.
  - unfold DIAG_OFF_CLANG in I.
    destruct (defined (__clang__ env)); [right; eauto | destruct I].
  - unfold DIAG_ON_CLANG in I.
    destruct (defined (__clang__ env)); [right; eauto | destruct I].
  - unfold DIAG_OFF_FLEX in I. destruct (defined (_MSC_VER env)).
    + left. split; [reflexivity|].
      apply (in_MS_syntax d
               [warning_push; warning_disable 4018; warning_disable 4244;
                warning_disable 4267; warning_disable 6011;
                warning_disable 6308; warning_disable 6386;
                warning_disable 6387; warning_disable 28182]), I.
    + right. destruct (defined (__clang__ env) || defined (__APPLE__ env))%bool;
        repeat (apply in_app_or in I as [I|I]); eauto.
  - unfold DIAG_ON_FLEX in I. destruct (defined (_MSC_VER env)).
    + left. split; [reflexivity|]. apply (in_MS_syntax d [warning_pop]), I.
    + right. destruct (defined (__clang__ env) || defined (__APPLE__ env))%bool;
        repeat (apply in_app_or in I as [I|I]); eauto.
  - unfold DIAG_OFF_BYACC in I.
    destruct (defined (_MSC_VER env)); [destruct I|].
    destruct (defined (YYBYACC env)); [right; eauto | destruct I].
  - unfold DIAG_ON_BYACC in I.
    destruct (defined (_MSC_VER env)); [destruct I|].
    destruct (defined (YYBYACC env)); [right; eauto | destruct I].
  - unfold USES_APPLE_DEPRECATED_API in I.
    destruct (defined (__APPLE__ env)); [right; eauto | destruct I].
  - unfold USES_APPLE_RST in I.
    destruct (defined (__APPLE__ env)); [right; eauto | destruct I].
Qed.

(** X6 on clang-cl: the push of [DIAG_OFF_FLEX] is Microsoft's, the pop of
    [DIAG_ON] is Clang's. *)
Lemma pragmas_in_selected_syntax_witness :
  ((defined (_MSC_VER (with_MSC_VER (clang_env 9 0))) = true /\
    syntax_of (__pragma warning_push) = Some MS_syntax) \/
   (exists b, diag_branch (with_MSC_VER (clang_env 9 0)) = Some b /\
              syntax_of (__pragma warning_push) = Some (branch_syntax b))) /\
  ((defined (_MSC_VER (with_MSC_VER (clang_env 9 0))) = true /\
    syntax_of (_Pragma (Cpp.stringify "clang diagnostic pop")) = Some MS_syntax) \/
   (exists b, diag_branch (with_MSC_VER (clang_env 9 0)) = Some b /\
              syntax_of (_Pragma (Cpp.stringify "clang diagnostic pop")) =
                Some (branch_syntax b))).
Proof.
  split.
  - apply (pragmas_in_selected_syntax (with_MSC_VER (clang_env 9 0)) "shadow"
             (DIAG_OFF_FLEX (with_MSC_VER (clang_env 9 0)))).
    + cbn. tauto.
    + cbn. tauto.
  - apply (pragmas_in_selected_syntax (with_MSC_VER (clang_env 9 0)) "shadow"
             (DIAG_ON (with_MSC_VER (clang_env 9 0)) "shadow")).
    + cbn. tauto.
    + cbn. tauto.
Defined.

(** X7: the header is inert, all ten macros expanding to nothing for every
    flag, exactly when [_MSC_VER] is undefined and the compiler is not one
    [DIAG_OFF] supports. *)
Theorem header_inert_iff (env : Env) (x : string) :
  Forall (fun e : expansion => e = []) (header_macros env x) <->
  supported env = false /\ defined (_MSC_VER env) = false.
Proof.
  split.
  - intros F. unfold header_macros in F.
    inversion F as [|? ? OFF F1]; subst. clear F.
    do 3 (inversion F1 as [|? ? _ F2]; subst; clear F1; rename F2 into F1).
    inversion F1 as [|? ? FLEX _]; subst. split.
    + apply (f_equal actions) in OFF. rewrite actions_DIAG_OFF in OFF.
      destruct (supported env); [discriminate OFF | reflexivity].
    + unfold DIAG_OFF_FLEX in FLEX.
      destruct (defined (_MSC_VER env)); [discriminate FLEX | reflexivity].
  - intros [S M]. pose proof (diag_branch_none env S) as B.
    unfold header_macros, DIAG_OFF_CLANG, DIAG_ON_CLANG, DIAG_OFF_FLEX,
      DIAG_ON_FLEX, DIAG_OFF_BYACC, DIAG_ON_BYACC, USES_APPLE_DEPRECATED_API,
      USES_APPLE_RST, DIAG_OFF, DIAG_ON.
    rewrite M, B.
    destruct (defined (__clang__ env)), (defined (__APPLE__ env)),
      (defined (YYBYACC env)); cbn; repeat constructor.
Qed.

(** X7 on Apple's GCC 4.2 with Berkeley YACC, and on a Microsoft compiler. *)
Lemma header_inert_iff_witness :
  Forall (fun e : expansion => e = [])
    (header_macros (with_YYBYACC (with_APPLE (gcc_env 4 2))) "shadow") /\
  ~ Forall (fun e : expansion => e = []) (header_macros msvc_env "shadow").
Proof.
  split.
  - apply (proj2 (header_inert_iff (with_YYBYACC (with_APPLE (gcc_env 4 2))) "shadow")).
    split; reflexivity.
  - intros F. apply (proj1 (header_inert_iff msvc_env "shadow")) in F.
    destruct F as [_ F]. discriminate F.
Defined.

End WholeHeader.

(** ** What is ignored, and by which macro *)

Section Ignored.
Import Diag.

Lemma diagnostic_eqb_eq (a b : diagnostic) :
  diagnostic_eqb a b = true <-> a = b.
Proof.
  destruct a as [v|m], b as [w|n]; cbn.
  - rewrite String.eqb_eq. split; [now intros -> | now intros [= ->]].
  - split; discriminate.
  - split; discriminate.
  - rewrite Z.eqb_eq. split; [now intros -> | now intros [= ->]].
Qed.

Lemma suppresses_In (e : expansion) (d : diagnostic) :
  suppresses e d = true <-> In (ignore d) (actions e).
Proof.
  unfold suppresses. rewrite existsb_exists. split.
  - intros (a & I & H). destruct a as [|d'|]; try discriminate H.
    cbn in H. apply diagnostic_eqb_eq in H. now subst.
  - intros I. exists (ignore d). split; [exact I|].
    cbn. now apply diagnostic_eqb_eq.
Qed.

(** X8: a suppress macro ignores nothing but what it is meant for:
    [DIAG_OFF(x)] and [DIAG_OFF_CLANG(x)] at most [-Wx], [DIAG_OFF_BYACC] at
    most shadow, [USES_APPLE_DEPRECATED_API] at most deprecated-declarations,
    and [DIAG_OFF_FLEX] at most its three flags and eight Microsoft codes. *)
Theorem suppress_macros_ignore_only_their_own (env : Env) (x : string)
    (d : diagnostic) :
  (suppresses (DIAG_OFF env x) d = true -> d = flag x) /\
  (suppresses (DIAG_OFF_CLANG env x) d = true -> d = flag x) /\
  (suppresses (DIAG_OFF_BYACC env) d = true -> d = flag "shadow") /\
  (suppresses (USES_APPLE_DEPRECATED_API env) d = true ->
   d = flag "deprecated-declarations") /\
  (suppresses (DIAG_OFF_FLEX env) d = true ->
   In d [flag "sign-compare"; flag "shorten-64-to-32"; flag "unreachable-code";
         code 4018; code 4244; code 4267; code 6011; code 6308; code 6386;
         code 6387; code 28182]).
Proof.
  assert (OFF : forall y, suppresses (DIAG_OFF env y) d = true -> d = flag y).
  { intros y H. apply suppresses_In in H. rewrite actions_DIAG_OFF in H.
    destruct (supported env); cbn in H; [|destruct H].
    destruct H as [H|[H|[]]]; [discriminate H | now injection H]. }
  assert (NIL : suppresses [] d = true -> forall d', d = d') by discriminate.
  repeat split.
  - apply OFF.
  - unfold DIAG_OFF_CLANG. destruct (defined (__clang__ env)); auto.
  - unfold DIAG_OFF_BYACC.
    destruct (defined (_MSC_VER env)), (defined (YYBYACC env)); auto.
  - unfold USES_APPLE_DEPRECATED_API. destruct (defined (__APPLE__ env)); auto.
  - intros H. apply suppresses_In in H. rewrite actions_DIAG_OFF_FLEX in H.
    destruct (defined (_MSC_VER env)),
      (defined (__clang__ env) || defined (__APPLE__ env))%bool,
      (supported env); cbn in H;
      repeat (destruct H as [H|H];
              [first [discriminate H | injection H as <-; cbn; tauto]|]);
      destruct H.
Qed.

(** X8 on GCC 4.8: [DIAG_OFF(shadow)] ignores shadow and does not ignore
    pedantic. *)
Lemma suppress_macros_ignore_only_their_own_witness :
  suppresses (DIAG_OFF (gcc_env 4 8) "shadow") (flag "shadow") = true /\
  suppresses (DIAG_OFF (gcc_env 4 8) "shadow") (flag "pedantic") <> true.
Proof.
  split; [reflexivity|].
  intros H.
  apply (proj1 (suppress_macros_ignore_only_their_own
                  (gcc_env 4 8) "shadow" (flag "pedantic"))) in H.
  discriminate H.
Defined.

(** X9: no restore macro ignores anything, but for [DIAG_ON_FLEX], which
    ignores unreachable-code, and that alone, exactly in the three-flag
    branch on a supported compiler. *)
Theorem restore_macros_ignore_nothing (env : Env) (x : string)
    (d : diagnostic) :
  suppresses (DIAG_ON env x) d = false /\
  suppresses (DIAG_ON_CLANG env x) d = false /\
  suppresses (DIAG_ON_BYACC env) d = false /\
  suppresses (USES_APPLE_RST env) d = false /\
  (suppresses (DIAG_ON_FLEX env) d = true <->
   d = flag "unreachable-code" /\ FLEX_pair_plain env = false).
Proof.
  assert (ON : forall y, suppresses (DIAG_ON env y) d = false).
  { intros y. unfold suppresses. rewrite actions_DIAG_ON.
    destruct (supported env); reflexivity. }
  repeat apply conj.
  - apply ON.
  - unfold DIAG_ON_CLANG. destruct (defined (__clang__ env)); [apply ON|reflexivity].
  - unfold DIAG_ON_BYACC.
    destruct (defined (_MSC_VER env)), (defined (YYBYACC env));
      first [apply ON | reflexivity].
  - unfold USES_APPLE_RST. destruct (defined (__APPLE__ env)); [apply ON|reflexivity].
  - intros H. apply suppresses_In in H. revert H.
    unfold FLEX_pair_plain. rewrite actions_DIAG_ON_FLEX.
    destruct (defined (_MSC_VER env)),
      (defined (__clang__ env) || defined (__APPLE__ env))%bool,
      (supported env); cbn; intros H;
      repeat (destruct H as [H|H]; [try discriminate H|]); try contradiction.
    injection H as <-. split; reflexivity.
  - intros [-> P]. apply suppresses_In. revert P.
    unfold FLEX_pair_plain. rewrite actions_DIAG_ON_FLEX.
    destruct (defined (_MSC_VER env)),
      (defined (__clang__ env) || defined (__APPLE__ env))%bool,
      (supported env); cbn; intros P; try discriminate P. tauto.
Qed.

(** X9 on Clang 9.0 and on GCC 4.8. *)
Lemma restore_macros_ignore_nothing_witness :
  suppresses (DIAG_ON_FLEX (clang_env 9 0)) (flag "unreachable-code") = true /\
  suppresses (DIAG_ON_FLEX (gcc_env 4 8)) (flag "unreachable-code") <> true.
Proof.
  pose proof (restore_macros_ignore_nothing (clang_env 9 0) "shadow"
                (flag "unreachable-code")) as (_ & _ & _ & _ & C).
  pose proof (restore_macros_ignore_nothing (gcc_env 4 8) "shadow"
                (flag "unreachable-code")) as (_ & _ & _ & _ & G).
  split.
  - apply (proj2 C). split; reflexivity.
  - intros H. apply (proj1 G) in H. destruct H as [_ H]. discriminate H.
Defined.

End Ignored.

(** ** Pushes and pops, macro by macro *)

Section PushPop.
Import Diag.

Lemma DIAG_OFF_saves_first (env : Env) (x : string) :
  pops (DIAG_OFF env x) = 0%nat /\
  (DIAG_OFF env x = [] \/ exists r, actions (DIAG_OFF env x) = push :: r).
Proof.
  unfold pops. rewrite actions_DIAG_OFF. unfold DIAG_OFF.
  rewrite supported_diag_branch.
  destruct (diag_branch env); split; eauto.
Qed.

Lemma DIAG_ON_pops_once (env : Env) (x : string) :
  pushes (DIAG_ON env x) = 0%nat /\ (pops (DIAG_ON env x) <= 1)%nat.
Proof.
  unfold pushes, pops. rewrite actions_DIAG_ON.
  destruct (supported env); cbn; lia.
Qed.

(** X10: a suppress macro never pops, and whenever it expands to anything
    its first action is a push, so nothing is ignored before the state is
    saved.  A restore macro other than [DIAG_ON_FLEX] never pushes and pops
    at most once. *)
Theorem suppress_saves_first_restore_pops_once (env : Env) (x : string)
    (e : expansion) :
  (In e [DIAG_OFF env x; DIAG_OFF_CLANG env x; DIAG_OFF_FLEX env;
         DIAG_OFF_BYACC env; USES_APPLE_DEPRECATED_API env] ->
   pops e = 0%nat /\ (e = [] \/ exists r, actions e = push :: r)) /\
  (In e [DIAG_ON env x; DIAG_ON_CLANG env x; DIAG_ON_BYACC env;
         USES_APPLE_RST env] ->
   pushes e = 0%nat /\ (pops e <= 1)%nat).
Proof.
  assert (NIL : pops [] = 0%nat /\ ([] = @nil directive \/
                 exists r, actions [] = push :: r)) by (split; auto).
  assert (NIL' : pushes [] = 0%nat /\ (pops [] <= 1)%nat) by (cbn; lia).
  pose proof (DIAG_OFF_saves_first env) as OFF.
  pose proof (DIAG_ON_pops_once env) as ON.
  split; intros I; cbn [In] in I.
  - destruct I as [<-|[<-|[<-|[<-|[<-|[]]]]]].
    + apply OFF.
    + unfold DIAG_OFF_CLANG. destruct (defined (__clang__ env)); auto.
    + unfold pops. rewrite actions_DIAG_OFF_FLEX. unfold DIAG_OFF_FLEX.
      destruct (defined (_MSC_VER env)); [split; eauto|].
      destruct (defined (__clang__ env) || defined (__APPLE__ env))%bool;
        rewrite ?actions_app, ?actions_DIAG_OFF; unfold DIAG_OFF;
        rewrite supported_diag_branch; destruct (diag_branch env);
        split; eauto.
    + unfold DIAG_OFF_BYACC.
      destruct (defined (_MSC_VER env)), (defined (YYBYACC env)); auto.
    + unfold USES_APPLE_DEPRECATED_API. destruct (defined (__APPLE__ env)); auto.
  - destruct I as [<-|[<-|[<-|[<-|[]]]]].
    + apply ON.
    + unfold DIAG_ON_CLANG. destruct (defined (__clang__ env)); auto.
    + unfold DIAG_ON_BYACC.
      destruct (defined (_MSC_VER env)), (defined (YYBYACC env)); auto.
    + unfold USES_APPLE_RST. destruct (defined (__APPLE__ env)); auto.
Qed.

(** X10 on Clang 9.0 for macOS, for [DIAG_OFF_FLEX] and [USES_APPLE_RST]. *)
Lemma suppress_saves_first_restore_pops_once_witness :
  (pops (DIAG_OFF_FLEX (with_APPLE (clang_env 9 0))) = 0%nat /\
   (DIAG_OFF_FLEX (with_APPLE (clang_env 9 0)) = [] \/
    exists r, actions (DIAG_OFF_FLEX (with_APPLE (clang_env 9 0))) = push :: r)) /\
  (pushes (USES_APPLE_RST (with_APPLE (clang_env 9 0))) = 0%nat /\
   (pops (USES_APPLE_RST (with_APPLE (clang_env 9 0))) <= 1)%nat).
Proof.
  split.
  - apply (proj1 (suppress_saves_first_restore_pops_once
                    (with_APPLE (clang_env 9 0)) "shadow" _)).
    cbn. tauto.
  - apply (proj2 (suppress_saves_first_restore_pops_once
                    (with_APPLE (clang_env 9 0)) "shadow" _)).
    cbn. tauto.
Defined.

End PushPop.
